(** * AdjNews: a shallow embedding of [adjnews.py]

    The client of [adjnews.py] authenticates with a bearer token, assembles
    query parameters and issues HTTP GET requests through a [requests]
    session.  This development embeds the class [AdjNews] in Rocq:

    - Python strings are [string]; [str.lstrip], [str.rstrip] and
      [str.lower] are written out for the ASCII range the client uses;
    - Python values that travel in a parameter dict are [pyval];
    - a [dict] is an insertion-ordered association list with unique keys;
    - [requests.structures.CaseInsensitiveDict] is a [gmap] from the
      lower-cased key to the pair (key as written, value);
    - methods run in a state-and-exception monad over the client object
      and the outside world (process environment, calls of [session.get],
      requests on the wire);
    - what a call of [session.get] does (the requests it sends, the
      cookies it stores, the response or exception it gives back) belongs
      to [requests] and to the network: it is a parameter of the
      development. *)

From Stdlib Require Import ZArith String Ascii List PrimFloat Lia.
From stdpp Require Import base option strings gmap pretty.
Import ListNotations.

Local Open Scope string_scope.
Local Open Scope Z_scope.

(** ** Python strings *)

Module PyStr.

(** [s.lstrip(c)] for a one-character argument: drop every leading [c]. *)
Fixpoint lstrip (c : ascii) (s : string) : string :=
  match s with
  | EmptyString => EmptyString
  | String a s' => if Ascii.eqb a c then lstrip c s' else s
  end.

(** [s.rstrip(c)] for a one-character argument: drop every trailing [c]. *)
Fixpoint rstrip (c : ascii) (s : string) : string :=
  match s with
  | EmptyString => EmptyString
  | String a s' =>
      match rstrip c s' with
      | EmptyString => if Ascii.eqb a c then EmptyString else String a EmptyString
      | r => String a r
      end
  end.

(** [c.lower()] on the ASCII range: [A-Z] is moved to [a-z]. *)
Definition lower_ascii (c : ascii) : ascii :=
  let n := N_of_ascii c in
  if ((65 <=? n) && (n <=? 90))%N then ascii_of_N (n + 32) else c.

(** [s.lower()]. *)
Fixpoint lower (s : string) : string :=
  match s with
  | EmptyString => EmptyString
  | String a s' => String (lower_ascii a) (lower s')
  end.

(** [str(b)] for a [bool]. *)
Definition str_bool (b : bool) : string := if b then "True" else "False".





End PyStr.

(** ** URL construction, line 37 of [adjnews.py]

    [url = f"{self.BASE_URL.rstrip('/')}/{endpoint.lstrip('/')}"] *)

Definition BASE_URL : string := "https://api.data.adj.news".

Definition join_url (base endpoint : string) : string :=
  PyStr.rstrip "/" base ++ "/" ++ PyStr.lstrip "/" endpoint.

(** ** Python values and dictionaries *)

(** The values the client puts in a parameter dict. *)
Inductive pyval : Type :=
| PyNone
| PyBool (b : bool)
| PyInt (n : Z)
| PyFloat (x : float)
| PyStr (s : string).

(** [bool(v)]: Python truth value testing. *)
Definition truthy (v : pyval) : bool :=
  match v with
  | PyNone => false
  | PyBool b => b
  | PyInt n => negb (n =? 0)
  | PyFloat x => negb (PrimFloat.eqb x PrimFloat.zero)
  | PyStr s => negb (String.eqb s "")
  end.

(** [value is not None]. *)
Definition is_not_None (v : pyval) : bool :=
  match v with
  | PyNone => false
  | _ => true
  end.

(** An [Optional[T]] argument as a Python value: [None] when absent. *)
Definition py_optional {T : Type} (inj : T -> pyval) (o : option T) : pyval :=
  match o with
  | Some t => inj t
  | None => PyNone
  end.

(** A [dict] with string keys: insertion-ordered, keys unique. *)
Definition dict : Type := list (string * pyval).

(** [d.get(k)]. *)
Fixpoint dict_get (k : string) (d : dict) : option pyval :=
  match d with
  | [] => None
  | (k', v') :: d' => if String.eqb k' k then Some v' else dict_get k d'
  end.

(** [d[k] = v]: an existing key keeps its position, a new key goes last. *)
Fixpoint dict_set (k : string) (v : pyval) (d : dict) : dict :=
  match d with
  | [] => [(k, v)]
  | (k', v') :: d' =>
      if String.eqb k' k then (k', v) :: d' else (k', v') :: dict_set k v d'
  end.

(** A dict display [{k1: v1, ..., kn: vn}]: the items are set in order. *)
Definition dict_literal (items : list (string * pyval)) : dict :=
  fold_left (fun d kv => dict_set (fst kv) (snd kv) d) items [].

(** No key of [d] occurs twice. *)
Fixpoint unique_keys (d : dict) : bool :=
  match d with
  | [] => true
  | (k, _) :: d' =>
      match dict_get k d' with
      | None => unique_keys d'
      | Some _ => false
      end
  end.

(** [list(d.keys())]. *)
Definition dict_keys (d : dict) : list string := map fst d.

(** ** Decoded JSON, what [response.json()] returns *)

#[local] Set Warnings "-register-all".
Inductive json : Type :=
| JNull
| JBool (b : bool)
| JInt (n : Z)
| JFloat (x : float)
| JStr (s : string)
| JArr (items : list json)
| JObj (members : list (string * json)).

(** ** Exceptions *)

(** The exception classes in play: the client's own [AdjNewsError]
    (line 11), the [requests.exceptions] hierarchy under
    [RequestException], and any class outside both. *)
Inductive exc_class : Type :=
| AdjNewsError
| RequestException
| HTTPError
| ConnectionError
| Timeout
| TooManyRedirects
| InvalidHeader
| JSONDecodeError
| ForeignError (name : string).

(** [issubclass(c, requests.RequestException)]. *)
Definition isinstance_RequestException (c : exc_class) : bool :=
  match c with
  | AdjNewsError | ForeignError _ => false
  | RequestException | HTTPError | ConnectionError | Timeout
  | TooManyRedirects | InvalidHeader | JSONDecodeError => true
  end.

(** An exception instance: its class and [str(e)]. *)
Record exn : Type := mk_exn { exn_class : exc_class; exn_str : string }.

(** ** The transport session of [requests] *)

(** [CaseInsensitiveDict]: [_store[key.lower()] = (key, value)]. *)
Abbreviation CaseInsensitiveDict := (gmap string (string * string)).

Definition ci_set (k v : string) (d : CaseInsensitiveDict) : CaseInsensitiveDict :=
  <[PyStr.lower k := (k, v)]> d.

Definition ci_get (k : string) (d : CaseInsensitiveDict) : option string :=
  snd <$> d !! PyStr.lower k.

(** [d.update({k1: v1, ...})]. *)
Definition ci_update (items : list (string * string)) (d : CaseInsensitiveDict)
  : CaseInsensitiveDict :=
  fold_left (fun d kv => ci_set (fst kv) (snd kv) d) items d.

(** A [requests.Session]: the default headers and the cookie jar. *)
Record Session : Type := mk_Session {
  headers : CaseInsensitiveDict;
  cookies : gmap string string
}.

(** An [AdjNews] instance: the two attributes set by [__init__]. *)
Record AdjNews : Type := mk_AdjNews {
  api_key : option string;
  session : Session
}.

(** A call [session.get(url, params=params)]: the session as it is when
    the call is made, and the two arguments. *)
Record GetCall : Type := mk_GetCall {
  call_session : Session;
  call_url : string;
  call_params : option dict
}.

(** An HTTP request that [requests] has put on the wire. *)
Record Request : Type := mk_Request {
  req_method : string;
  req_url : string;
  req_headers : CaseInsensitiveDict
}.

(** A [requests.Response]: [resp_json] is the decoded body, or the message
    of the decoding error when the body is not JSON. *)
Record Response : Type := mk_Response {
  status_code : Z;
  reason : string;
  resp_url : string;
  resp_json : json + string
}.

(** What a call of [session.get] does. All of it is decided by [requests]
    and the network, not by the client: the requests that go on the wire
    (none when the call raises before sending, several when redirects are
    followed, with headers as the library prepares them), the cookies the
    exchange sets, and the exception raised or the response returned. *)
Record Answer : Type := mk_Answer {
  sent_requests : list Request;
  set_cookies : list (string * string);
  outcome : exn + Response
}.

(** The world outside the client: [os.environ] (after [load_dotenv()]),
    the calls of [session.get] made so far and the requests sent so far,
    oldest first. *)
Record World : Type := mk_World {
  environ : gmap string string;
  calls : list GetCall;
  wire : list Request
}.

(** ** The monad of methods: state and exceptions *)

Inductive result (A : Type) : Type :=
| Return (a : A)
| Raise (e : exn).
Arguments Return {A} a.
Arguments Raise {A} e.

Definition M (S A : Type) : Type := S -> result A * S.

Definition ret {S A : Type} (a : A) : M S A := fun s => (Return a, s).

Definition raise {S A : Type} (e : exn) : M S A := fun s => (Raise e, s).

Definition bind {S A B : Type} (m : M S A) (k : A -> M S B) : M S B :=
  fun s =>
    match m s with
    | (Return a, s') => k a s'
    | (Raise e, s') => (Raise e, s')
    end.

(** [try: body  except cls as e: handler(e)]. *)
Definition try_except {S A : Type} (body : M S A) (catches : exc_class -> bool)
    (handler : exn -> M S A) : M S A :=
  fun s =>
    match body s with
    | (Return a, s') => (Return a, s')
    | (Raise e, s') =>
        if catches (exn_class e) then handler e s' else (Raise e, s')
    end.

Declare Scope py_scope.
Delimit Scope py_scope with py.
Notation "x <- c1 ;; c2" := (bind c1 (fun x => c2))
  (at level 100, c1 at next level, right associativity) : py_scope.

(** ** The arguments of [list_markets], with their defaults (lines 83-101) *)

Record list_markets_args : Type := mk_list_markets_args {
  limit : Z;
  offset : Z;
  platform : option string;
  status : option string;
  category : option string;
  market_type : option string;
  keyword : option string;
  tag : option string;
  created_after : option string;
  created_before : option string;
  probability_min : option float;
  probability_max : option float;
  sort_by : string;
  sort_dir : string;
  include_closed : bool;
  include_resolved : bool
}.

Definition list_markets_defaults : list_markets_args :=
  {| limit := 5; offset := 0;
     platform := None; status := None; category := None;
     market_type := None; keyword := None; tag := None;
     created_after := None; created_before := None;
     probability_min := None; probability_max := None;
     sort_by := "updated_at"; sort_dir := "desc";
     include_closed := false; include_resolved := false |}.

(** Defaults of [semantic_search] (lines 48-49). *)
Definition semantic_search_default_limit : Z := 10.
Definition semantic_search_default_include_context : bool := false.


(** [s.startswith(prefix)]. *)
Fixpoint str_startswith (s prefix : string) {struct prefix} : bool :=
  match prefix, s with
  | EmptyString, _ => true
  | String p prefix', String a s' => Ascii.eqb a p && str_startswith s' prefix'
  | String _ _, EmptyString => false
  end.

(** The entries of a dict whose value is not [None], in order. *)
Definition supplied (d : dict) : dict :=
  List.filter (fun kv => is_not_None (snd kv)) d.

(** ** Sample worlds, used to run the client on concrete inputs *)

Module Sample.

(** The headers of a fresh session of requests 2.32. *)
Definition requests_headers : CaseInsensitiveDict :=
  ci_update [("User-Agent", "python-requests/2.32.3");
             ("Accept-Encoding", "gzip, deflate");
             ("Accept", "*/*");
             ("Connection", "keep-alive")] ∅.

(** A process with no [ADJ_NEWS_API_KEY], and one where it is empty. *)
Definition world_unset : World := {| environ := ∅; calls := []; wire := [] |}.

Definition world_blank : World :=
  {| environ := {["ADJ_NEWS_API_KEY" := ""]}; calls := []; wire := [] |}.

(** A process with [ADJ_NEWS_API_KEY=k3y]. *)
Definition world_k3y : World :=
  {| environ := {["ADJ_NEWS_API_KEY" := "k3y"]}; calls := []; wire := [] |}.

(** The client that [AdjNews("k3y")] builds. *)
Definition client : AdjNews :=
  {| api_key := Some "k3y";
     session := {| headers := ci_update [("Authorization", "Bearer k3y");
                                         ("Accept", "application/json")]
                                        requests_headers;
                   cookies := ∅ |} |}.

Definition payload : json :=
  JObj [("data", JArr []); ("meta", JObj [("query", JStr "inflation")])].

(** The request of an exchange without redirect: the URL of the call, the
    headers of the session. *)
Definition plain_request (c : GetCall) : Request :=
  {| req_method := "GET"; req_url := call_url c;
     req_headers := headers (call_session c) |}.

Definition answer (status : Z) (why : string) (body : json + string)
    (c : GetCall) : Answer :=
  {| sent_requests := [plain_request c];
     set_cookies := [];
     outcome := inr {| status_code := status; reason := why;
                       resp_url := call_url c; resp_json := body |} |}.

(** A service that answers 200 with a JSON body. *)
Definition remote_ok (_ : list Request) (c : GetCall) : Answer :=
  answer 200 "OK" (inl payload) c.

(** A service that answers 500. *)
Definition remote_500 (_ : list Request) (c : GetCall) : Answer :=
  answer 500 "Internal Server Error"
         (inr "Expecting value: line 1 column 1 (char 0)") c.

(** A service that answers 404 with a JSON error document. *)
Definition remote_404 (_ : list Request) (c : GetCall) : Answer :=
  answer 404 "Not Found" (inl (JObj [("error", JStr "not found")])) c.


(** A service that answers 200 with a body that is not JSON. *)
Definition remote_html (_ : list Request) (c : GetCall) : Answer :=
  answer 200 "OK" (inr "Expecting value: line 1 column 1 (char 0)") c.

(** A host that refuses the connection. *)
Definition remote_refused (_ : list Request) (_ : GetCall) : Answer :=
  {| sent_requests := [];
     set_cookies := [];
     outcome := inl (mk_exn ConnectionError "Connection refused") |}.

(** A transport that fails outside the requests hierarchy. *)
Definition remote_foreign (_ : list Request) (_ : GetCall) : Answer :=
  {| sent_requests := [];
     set_cookies := [];
     outcome := inl (mk_exn (ForeignError "KeyboardInterrupt") "") |}.


(** A header value that the library refuses: it raises before sending. *)
Definition remote_invalid_header (_ : list Request) (_ : GetCall) : Answer :=
  {| sent_requests := [];
     set_cookies := [];
     outcome := inl (mk_exn InvalidHeader "Invalid header value") |}.


(** [list_markets(platform="kalshi", probability_min=0.5)]. *)
Definition kalshi_args : list_markets_args :=
  {| limit := 5; offset := 0;
     platform := Some "kalshi"; status := None; category := None;
     market_type := None; keyword := None; tag := None;
     created_after := None; created_before := None;
     probability_min := Some 0.5%float; probability_max := None;
     sort_by := "updated_at"; sort_dir := "desc";
     include_closed := false; include_resolved := false |}.

(** [list_markets(platform="", probability_min=0.0)]. *)
Definition falsy_args : list_markets_args :=
  {| limit := 5; offset := 0;
     platform := Some ""; status := None; category := None;
     market_type := None; keyword := None; tag := None;
     created_after := None; created_before := None;
     probability_min := Some 0%float; probability_max := None;
     sort_by := "updated_at"; sort_dir := "desc";
     include_closed := false; include_resolved := false |}.

End Sample.

(** ** The class [AdjNews] *)

Section Client.

(** [requests.utils.default_headers()]: the headers a fresh
    [requests.Session()] starts with (they depend on the installed
    version of the library). *)
Variable default_headers : CaseInsensitiveDict.

(** The library, the network and the remote service: what a call of
    [session.get] does, given the requests sent before it. *)
Variable remote : list Request -> GetCall -> Answer.

Local Open Scope py_scope.

(** [os.getenv(name, default)]. *)
Definition os_getenv (name : string) (default : option string)
  : M World (option string) :=
  fun w =>
    (Return match environ w !! name with
            | Some v => Some v
            | None => default
            end, w).

(** [bool(x)] for [x : Optional[str]]: [None] and [""] are false. *)
Definition truthy_opt_str (x : option string) : bool :=
  truthy (py_optional PyStr x).

(** [f"{x}"] for [x : Optional[str]]. *)
Definition format_opt_str (x : option string) : string :=
  match x with
  | Some s => s
  | None => "None"
  end.

(** [requests.Session()]: no request is made. *)
Definition requests_Session : M World Session :=
  ret {| headers := default_headers; cookies := ∅ |}.

(** [_init_session] (lines 28-34), reading [self.api_key]. *)
Definition _init_session (self_api_key : option string) : M World Session :=
  session <- requests_Session ;;
  ret {| headers :=
           ci_update [("Authorization", "Bearer " ++ format_opt_str self_api_key);
                      ("Accept", "application/json")]
                     (headers session);
         cookies := cookies session |}.

(** [__init__] (lines 19-26). *)
Definition __init__ (api_key : option string) : M World AdjNews :=
  api_key <- (if negb (truthy_opt_str api_key) then
                api_key <- os_getenv "ADJ_NEWS_API_KEY" None ;;
                if negb (truthy_opt_str api_key) then
                  raise (mk_exn AdjNewsError "ADJ_NEWS_API_KEY Not Found.")
                else ret api_key
              else ret api_key) ;;
  session <- _init_session api_key ;;
  ret {| api_key := api_key; session := session |}.

(** The call [self.session.get(url, params=params)] of line 39. *)
Definition get_call (self : AdjNews) (url : string) (params : option dict)
  : GetCall :=
  {| call_session := session self; call_url := url; call_params := params |}.

(** The session after an exchange: it keeps the cookies that were set,
    its headers are not written. *)
Definition keep_cookies (set : list (string * string)) (s : Session) : Session :=
  {| headers := headers s;
     cookies := fold_left (fun jar kv => <[fst kv := snd kv]> jar) set (cookies s) |}.

(** [self.session.get(url, params=params)]: the call is made once; the
    requests it sends, the cookies it stores and its outcome are the
    library's. *)
Definition session_get (url : string) (params : option dict)
  : M (AdjNews * World) Response :=
  fun '(self, w) =>
    let call := get_call self url params in
    let ans := remote (wire w) call in
    (match outcome ans with
     | inl e => Raise e
     | inr response => Return response
     end,
     ({| api_key := api_key self;
         session := keep_cookies (set_cookies ans) (session self) |},
      {| environ := environ w;
         calls := (calls w ++ [call])%list;
         wire := (wire w ++ sent_requests ans)%list |})).

(** The message of the [HTTPError] that [response.raise_for_status()]
    builds, as [requests.models.Response] computes it: empty unless the
    status is 4xx or 5xx. *)
Definition http_error_msg (response : Response) : string :=
  if (400 <=? status_code response) && (status_code response <? 500) then
    pretty (status_code response) ++ " Client Error: " ++ reason response
      ++ " for url: " ++ resp_url response
  else if (500 <=? status_code response) && (status_code response <? 600) then
    pretty (status_code response) ++ " Server Error: " ++ reason response
      ++ " for url: " ++ resp_url response
  else "".

(** [response.raise_for_status()]. *)
Definition raise_for_status {S : Type} (response : Response) : M S unit :=
  if negb (String.eqb (http_error_msg response) "") then
    raise (mk_exn HTTPError (http_error_msg response))
  else ret tt.

(** [response.json()]: a body that is not JSON raises
    [requests.exceptions.JSONDecodeError], which is a [RequestException]
    (requests 2.27 and later). *)
Definition response_json {S : Type} (response : Response) : M S json :=
  match resp_json response with
  | inl v => ret v
  | inr msg => raise (mk_exn JSONDecodeError msg)
  end.

(** [_get] (lines 36-43). *)
Definition _get (endpoint : string) (params : option dict)
  : M (AdjNews * World) json :=
  let url := join_url BASE_URL endpoint in
  try_except
    (response <- session_get url params ;;
     _ <- raise_for_status response ;;
     response_json response)
    isinstance_RequestException
    (fun e => raise (mk_exn AdjNewsError
                            ("GET " ++ url ++ " failed: " ++ exn_str e))).

(** [params] as assembled by [semantic_search] (line 80). *)
Definition semantic_search_params (query : string) (limit : Z)
    (include_context : bool) : dict :=
  dict_literal [("q", PyStr query); ("limit", PyInt limit);
                ("include_context", PyBool include_context)].

(** [semantic_search] (lines 45-81). *)
Definition semantic_search (query : string) (limit : Z)
    (include_context : bool) : M (AdjNews * World) json :=
  let endpoint := "/api/search/query" in
  let params := semantic_search_params query limit include_context in
  _get endpoint (Some params).

(** [optional_params] of [list_markets] (lines 154-165). *)
Definition optional_params (a : list_markets_args) : dict :=
  dict_literal
    [("platform", py_optional PyStr (platform a));
     ("status", py_optional PyStr (status a));
     ("category", py_optional PyStr (category a));
     ("market_type", py_optional PyStr (market_type a));
     ("keyword", py_optional PyStr (keyword a));
     ("tag", py_optional PyStr (tag a));
     ("created_after", py_optional PyStr (created_after a));
     ("created_before", py_optional PyStr (created_before a));
     ("probability_min", py_optional PyFloat (probability_min a));
     ("probability_max", py_optional PyFloat (probability_max a))].

(** The six entries [params] starts with (lines 146-153). *)
Definition required_params (a : list_markets_args) : dict :=
  dict_literal
    [("limit", PyInt (limit a));
     ("offset", PyInt (offset a));
     ("sort_by", PyStr (sort_by a));
     ("sort_dir", PyStr (sort_dir a));
     ("include_closed", PyStr (PyStr.lower (PyStr.str_bool (include_closed a))));
     ("include_resolved", PyStr (PyStr.lower (PyStr.str_bool (include_resolved a))))].

(** The loop of lines 166-168 over [optional.items()]. *)
Definition add_optional (optional params : dict) : dict :=
  fold_left (fun params kv =>
               if is_not_None (snd kv) then dict_set (fst kv) (snd kv) params
               else params)
            optional params.

(** [params] as assembled by [list_markets] (lines 146-168). *)
Definition list_markets_params (a : list_markets_args) : dict :=
  add_optional (optional_params a) (required_params a).

(** [list_markets] (lines 83-169). *)
Definition list_markets (a : list_markets_args) : M (AdjNews * World) json :=
  let endpoint := "/api/markets" in
  _get endpoint (Some (list_markets_params a)).

(** A caller's use of a constructed client: any of the three methods, with
    any arguments. *)
Inductive call : Type :=
| Call_get (endpoint : string) (params : option dict)
| Call_semantic_search (query : string) (limit : Z) (include_context : bool)
| Call_list_markets (a : list_markets_args).

Definition do_call (c : call) : M (AdjNews * World) json :=
  match c with
  | Call_get endpoint params => _get endpoint params
  | Call_semantic_search query limit include_context =>
      semantic_search query limit include_context
  | Call_list_markets a => list_markets a
  end.

(** A caller making the calls [cs] one after the other, going on after a
    failure. *)
Fixpoint run_calls (cs : list call) (s : AdjNews * World) : AdjNews * World :=
  match cs with
  | [] => s
  | c :: cs' => run_calls cs' (snd (do_call c s))
  end.

(** ** Lemmas on strings *)

Section StringFacts.

Lemma append_cons (a : ascii) (s t : string) :
  String a s ++ t = String a (s ++ t).
Proof. reflexivity. Qed.










End StringFacts.

(** ** Lemmas on dictionaries *)

Section DictFacts.

Lemma dict_get_set_eq (k : string) (v : pyval) (d : dict) :
  dict_get k (dict_set k v d) = Some v.
Proof.
  induction d as [|[k' v'] d IH]; cbn [dict_set dict_get].
  - now rewrite String.eqb_refl.
  - destruct (String.eqb k' k) eqn:E; cbn [dict_get]; rewrite E; auto.
Qed.

Lemma dict_get_set_ne (k k' : string) (v : pyval) (d : dict) :
  k <> k' -> dict_get k' (dict_set k v d) = dict_get k' d.
Proof.
  intros Hne. induction d as [|[k0 v0] d IH]; cbn [dict_set dict_get].
  - destruct (String.eqb k k') eqn:E; [| reflexivity].
    apply String.eqb_eq in E. contradiction.
  - destruct (String.eqb k0 k) eqn:E; cbn [dict_get].
    + apply String.eqb_eq in E. subst k0.
      destruct (String.eqb k k') eqn:E'; [| reflexivity].
      apply String.eqb_eq in E'. contradiction.
    + now rewrite IH.
Qed.

Lemma dict_get_in_keys (k : string) (v : pyval) (d : dict) :
  dict_get k d = Some v -> In k (dict_keys d).
Proof.
  induction d as [|[k0 v0] d IH]; cbn [dict_get dict_keys map fst];
    [discriminate |].
  destruct (String.eqb k0 k) eqn:E.
  - apply String.eqb_eq in E. now left.
  - intros H. right. now apply IH.
Qed.

Lemma add_optional_absent (optional params : dict) (k : string) :
  dict_get k optional = None ->
  dict_get k (add_optional optional params) = dict_get k params.
Proof.
  revert params.
  induction optional as [|[k0 v0] rest IH]; intros params Hk; [reflexivity |].
  cbn [dict_get] in Hk. destruct (String.eqb k0 k) eqn:E; [discriminate |].
  unfold add_optional in *. cbn [fold_left fst snd].
  rewrite (IH _ Hk).
  destruct (is_not_None v0); [| reflexivity].
  apply dict_get_set_ne. intros ->. now rewrite String.eqb_refl in E.
Qed.

(** The loop writes every entry of [optional] whose value is not [None],
    and leaves every other key of [params] as it was. *)
Lemma add_optional_get (optional params : dict) (k : string) :
  unique_keys optional = true ->
  dict_get k (add_optional optional params)
  = match dict_get k optional with
    | Some v => if is_not_None v then Some v else dict_get k params
    | None => dict_get k params
    end.
Proof.
  revert params.
  induction optional as [|[k0 v0] rest IH]; intros params Hu; [reflexivity |].
  cbn [unique_keys] in Hu.
  destruct (dict_get k0 rest) eqn:Hfresh; [discriminate |].
  cbn [dict_get]. destruct (String.eqb k0 k) eqn:E.
  - apply String.eqb_eq in E. subst k0.
    change (add_optional ((k, v0) :: rest) params)
      with (add_optional rest
              (if is_not_None v0 then dict_set k v0 params else params)).
    rewrite (add_optional_absent _ _ _ Hfresh).
    destruct (is_not_None v0); [apply dict_get_set_eq | reflexivity].
  - change (add_optional ((k0, v0) :: rest) params)
      with (add_optional rest
              (if is_not_None v0 then dict_set k0 v0 params else params)).
    rewrite (IH _ Hu).
    assert (Hp : dict_get k (if is_not_None v0 then dict_set k0 v0 params
                             else params) = dict_get k params).
    { destruct (is_not_None v0); [| reflexivity].
      apply dict_get_set_ne. intros ->. now rewrite String.eqb_refl in E. }
    now rewrite Hp.
Qed.

Lemma optional_params_items (a : list_markets_args) :
  optional_params a
  = [("platform", py_optional PyStr (platform a));
     ("status", py_optional PyStr (status a));
     ("category", py_optional PyStr (category a));
     ("market_type", py_optional PyStr (market_type a));
     ("keyword", py_optional PyStr (keyword a));
     ("tag", py_optional PyStr (tag a));
     ("created_after", py_optional PyStr (created_after a));
     ("created_before", py_optional PyStr (created_before a));
     ("probability_min", py_optional PyFloat (probability_min a));
     ("probability_max", py_optional PyFloat (probability_max a))].
Proof. reflexivity. Qed.

Lemma required_params_items (a : list_markets_args) :
  required_params a
  = [("limit", PyInt (limit a));
     ("offset", PyInt (offset a));
     ("sort_by", PyStr (sort_by a));
     ("sort_dir", PyStr (sort_dir a));
     ("include_closed", PyStr (if include_closed a then "true" else "false"));
     ("include_resolved", PyStr (if include_resolved a then "true" else "false"))].
Proof.
  unfold required_params.
  destruct (include_closed a), (include_resolved a); reflexivity.
Qed.

Lemma optional_params_unique (a : list_markets_args) :
  unique_keys (optional_params a) = true.
Proof. reflexivity. Qed.

(** What [list_markets] sends under any key. *)
Lemma list_markets_params_get (a : list_markets_args) (k : string) :
  dict_get k (list_markets_params a)
  = match dict_get k (optional_params a) with
    | Some v => if is_not_None v then Some v else dict_get k (required_params a)
    | None => dict_get k (required_params a)
    end.
Proof. apply add_optional_get, optional_params_unique. Qed.

Lemma required_not_optional (a : list_markets_args) (k : string) (v : pyval) :
  dict_get k (optional_params a) = Some v ->
  dict_get k (required_params a) = None.
Proof.
  intros H. apply dict_get_in_keys in H.
  rewrite required_params_items.
  rewrite optional_params_items in H. cbn [dict_keys map fst In] in H.
  repeat (destruct H as [<- | H]; [reflexivity |]).
  contradiction.
Qed.

End DictFacts.

(** ** Running [_get] *)

Section GetFacts.

Variables (endpoint : string) (params : option dict).
Variables (self : AdjNews) (w : World).

Local Abbreviation url := (join_url BASE_URL endpoint).
Local Abbreviation ans := (remote (wire w) (get_call self url params)).

Ltac run_get H :=
  unfold _get, try_except, bind, session_get, raise_for_status,
    response_json, raise, ret;
  cbv zeta; rewrite H.

Lemma app_cons_not_nil (x : string) (c : ascii) (y z : string) :
  String.eqb (x ++ String c y ++ z) "" = false.
Proof. destruct x; reflexivity. Qed.

Lemma http_error_msg_4xx_5xx (r : Response) :
  400 <= status_code r < 600 -> String.eqb (http_error_msg r) "" = false.
Proof.
  intros Hr. unfold http_error_msg.
  destruct ((400 <=? status_code r) && (status_code r <? 500)) eqn:E4;
    [apply app_cons_not_nil |].
  destruct ((500 <=? status_code r) && (status_code r <? 600)) eqn:E5;
    [apply app_cons_not_nil |].
  exfalso. lia.
Qed.

Lemma http_error_msg_other (r : Response) :
  ~ (400 <= status_code r < 600) -> http_error_msg r = "".
Proof.
  intros Hr. unfold http_error_msg.
  destruct ((400 <=? status_code r) && (status_code r <? 500)) eqn:E4;
    [exfalso; lia |].
  destruct ((500 <=? status_code r) && (status_code r <? 600)) eqn:E5;
    [exfalso; lia | reflexivity].
Qed.


(** The state after [_get]: one more call of [session.get], the requests
    it sent on the wire, the cookies of the exchange in the jar. *)
Lemma _get_state :
  snd (_get endpoint params (self, w))
  = ({| api_key := api_key self;
        session := keep_cookies (set_cookies ans) (session self) |},
     {| environ := environ w;
        calls := (calls w ++ [get_call self url params])%list;
        wire := (wire w ++ sent_requests ans)%list |}).
Proof.
  unfold _get, try_except, bind, session_get, raise_for_status,
    response_json, raise, ret.
  cbv zeta.
  destruct (outcome ans) as [e | r].
  - now destruct (isinstance_RequestException (exn_class e)).
  - destruct (negb (String.eqb (http_error_msg r) "")); [reflexivity |].
    now destruct (resp_json r).
Qed.

Lemma _get_transport_error (e : exn) :
  outcome ans = inl e ->
  isinstance_RequestException (exn_class e) = true ->
  fst (_get endpoint params (self, w))
  = Raise (mk_exn AdjNewsError ("GET " ++ url ++ " failed: " ++ exn_str e)).
Proof. intros Ho Hc. run_get Ho. cbn. now rewrite Hc. Qed.

Lemma _get_foreign_error (e : exn) :
  outcome ans = inl e ->
  isinstance_RequestException (exn_class e) = false ->
  fst (_get endpoint params (self, w)) = Raise e.
Proof. intros Ho Hc. run_get Ho. cbn. now rewrite Hc. Qed.

Lemma _get_http_error (r : Response) :
  outcome ans = inr r ->
  400 <= status_code r < 600 ->
  fst (_get endpoint params (self, w))
  = Raise (mk_exn AdjNewsError
                  ("GET " ++ url ++ " failed: " ++ http_error_msg r)).
Proof.
  intros Ho Hr. run_get Ho.
  now rewrite (http_error_msg_4xx_5xx r Hr).
Qed.

Lemma _get_bad_json (r : Response) (msg : string) :
  outcome ans = inr r ->
  ~ (400 <= status_code r < 600) ->
  resp_json r = inr msg ->
  fst (_get endpoint params (self, w))
  = Raise (mk_exn AdjNewsError ("GET " ++ url ++ " failed: " ++ msg)).
Proof.
  intros Ho Hr Hj. run_get Ho.
  rewrite (http_error_msg_other r Hr). cbn. now rewrite Hj.
Qed.

Lemma _get_ok (r : Response) (v : json) :
  outcome ans = inr r ->
  ~ (400 <= status_code r < 600) ->
  resp_json r = inl v ->
  fst (_get endpoint params (self, w)) = Return v.
Proof.
  intros Ho Hr Hj. run_get Ho.
  rewrite (http_error_msg_other r Hr). cbn. now rewrite Hj.
Qed.


End GetFacts.

(** ** Sequences of calls *)

Section CallFacts.



End CallFacts.

(** ** Parameter assembly *)

(** Reduce a lookup of a literal key in [list_markets_params]. *)
Ltac lookup_param :=
  rewrite list_markets_params_get, optional_params_items,
    ?required_params_items;
  cbn [dict_get String.eqb Ascii.eqb Bool.eqb andb].

(** C1. The two boolean parameters of [list_markets] are sent as the
    lowercase strings ["true"] and ["false"]; [semantic_search] puts the
    Python boolean itself under [include_context], for both values. *)
Theorem C1_boolean_parameters (a : list_markets_args) (query : string)
    (n : Z) (include_context : bool) :
  dict_get "include_closed" (list_markets_params a)
  = Some (PyStr (if include_closed a then "true" else "false"))
  /\ dict_get "include_resolved" (list_markets_params a)
     = Some (PyStr (if include_resolved a then "true" else "false"))
  /\ dict_get "include_context" (semantic_search_params query n include_context)
     = Some (PyBool include_context)
  /\ PyBool include_context
     <> PyStr (if include_context then "true" else "false").
Proof.
  repeat split.
  - now lookup_param.
  - now lookup_param.
  - discriminate.
Qed.

(** C5. [list_markets] always sends its six defaulted parameters, sends
    each of the ten optional parameters exactly when the caller gave a
    value for it (and then that value), and sends no other key. *)
Theorem C5_list_markets_params (a : list_markets_args) :
  let params := list_markets_params a in
  (dict_get "limit" params = Some (PyInt (limit a))
   /\ dict_get "offset" params = Some (PyInt (offset a))
   /\ dict_get "sort_by" params = Some (PyStr (sort_by a))
   /\ dict_get "sort_dir" params = Some (PyStr (sort_dir a))
   /\ dict_get "include_closed" params
      = Some (PyStr (if include_closed a then "true" else "false"))
   /\ dict_get "include_resolved" params
      = Some (PyStr (if include_resolved a then "true" else "false")))
  /\ (dict_get "platform" params = PyStr <$> platform a
      /\ dict_get "status" params = PyStr <$> status a
      /\ dict_get "category" params = PyStr <$> category a
      /\ dict_get "market_type" params = PyStr <$> market_type a
      /\ dict_get "keyword" params = PyStr <$> keyword a
      /\ dict_get "tag" params = PyStr <$> tag a
      /\ dict_get "created_after" params = PyStr <$> created_after a
      /\ dict_get "created_before" params = PyStr <$> created_before a
      /\ dict_get "probability_min" params = PyFloat <$> probability_min a
      /\ dict_get "probability_max" params = PyFloat <$> probability_max a)
  /\ (forall key : string,
         is_Some (dict_get key params) ->
         In key ["limit"; "offset"; "sort_by"; "sort_dir"; "include_closed";
                 "include_resolved"; "platform"; "status"; "category";
                 "market_type"; "keyword"; "tag"; "created_after";
                 "created_before"; "probability_min"; "probability_max"])
  /\ (forall key : string, dict_get key params <> Some PyNone).
Proof.
  cbv zeta. split; [| split; [| split]].
  - repeat split; now lookup_param.
  - repeat split; lookup_param;
      match goal with
      | |- context [py_optional _ ?o] => destruct o; reflexivity
      end.
  - intros key [v Hv]. rewrite list_markets_params_get in Hv.
    destruct (dict_get key (optional_params a)) as [w|] eqn:Ho.
    + apply dict_get_in_keys in Ho. rewrite optional_params_items in Ho.
      cbn [dict_keys map fst] in Ho.
      do 6 right. exact Ho.
    + apply dict_get_in_keys in Hv. rewrite required_params_items in Hv.
      cbn [dict_keys map fst] in Hv.
      apply in_or_app with (l := ["limit"; "offset"; "sort_by"; "sort_dir";
                                 "include_closed"; "include_resolved"]).
      left. exact Hv.
  - intros key. rewrite list_markets_params_get.
    destruct (dict_get key (optional_params a)) as [w|] eqn:Ho.
    + destruct w; cbn [is_not_None]; try discriminate.
      now rewrite (required_not_optional _ _ _ Ho).
    + rewrite required_params_items. cbn [dict_get].
      repeat (destruct (String.eqb _ key); [discriminate |]).
      discriminate.
Qed.

(** C10. Whether an optional parameter of [list_markets] is sent depends
    on [is not None] alone: a value that is not [None] but is false in a
    boolean context (the empty string, [0.0]) is sent as it is. *)
Theorem C10_falsy_optional_is_sent (a : list_markets_args) (key : string)
    (value : pyval) :
  dict_get key (optional_params a) = Some value ->
  value <> PyNone ->
  truthy value = false ->
  dict_get key (list_markets_params a) = Some value.
Proof.
  intros Hkey Hvalue _. rewrite list_markets_params_get, Hkey.
  destruct value; [contradiction | reflexivity..].
Qed.

(** ** Construction *)

(** C3. With no credential argument (omitted or empty) and no non-empty
    [ADJ_NEWS_API_KEY] in the environment, [__init__] raises
    [AdjNewsError("ADJ_NEWS_API_KEY Not Found.")]: no client is built and
    the world is untouched. *)
Theorem C3_no_credential_fails (key : option string) (w : World) :
  key = None \/ key = Some "" ->
  environ w !! "ADJ_NEWS_API_KEY" = None
  \/ environ w !! "ADJ_NEWS_API_KEY" = Some "" ->
  __init__ key w
  = (Raise (mk_exn AdjNewsError "ADJ_NEWS_API_KEY Not Found."), w).
Proof.
  intros Hkey Henv.
  assert (Hfallback : os_getenv "ADJ_NEWS_API_KEY" None w
                      = (Return (environ w !! "ADJ_NEWS_API_KEY"), w)).
  { unfold os_getenv. now destruct (environ w !! "ADJ_NEWS_API_KEY"). }
  assert (Hno : truthy_opt_str key = false)
    by (destruct Hkey as [-> | ->]; reflexivity).
  unfold __init__, bind at 1 2. rewrite Hno. cbn [negb].
  rewrite Hfallback.
  destruct Henv as [-> | ->]; reflexivity.
Qed.

Lemma init_session_headers (key : option string) (w : World) :
  exists s : Session,
    _init_session key w = (Return s, w)
    /\ cookies s = ∅
    /\ ci_get "Authorization" (headers s)
       = Some ("Bearer " ++ format_opt_str key)
    /\ ci_get "Accept" (headers s) = Some "application/json".
Proof.
  eexists. split; [reflexivity |].
  cbn [headers cookies ci_update fold_left fst snd]. split; [reflexivity |].
  unfold ci_get, ci_set.
  change (PyStr.lower "Authorization") with "authorization".
  change (PyStr.lower "Accept") with "accept".
  split.
  - rewrite lookup_insert_ne by discriminate.
    now rewrite lookup_insert_eq.
  - now rewrite lookup_insert_eq.
Qed.


(** ** Calls *)



(** C2, as the code has it. [semantic_search("inflation", limit=5)] calls
    [session.get] once, for [/api/search/query] with the parameters
    [q = "inflation"], [limit = 5] and [include_context = False], the
    Python boolean and not the string ["false"]; when the answer is not an
    error status and its body is JSON, the decoded body is returned as it
    is. *)
Theorem C2_semantic_search_inflation (self : AdjNews) (w : World) :
  let run :=
    semantic_search "inflation" 5 semantic_search_default_include_context
                    (self, w) in
  let call :=
    get_call self "https://api.data.adj.news/api/search/query"
      (Some [("q", PyStr "inflation"); ("limit", PyInt 5);
             ("include_context", PyBool false)]) in
  calls (snd (snd run)) = (calls w ++ [call])%list
  /\ (forall (r : Response) (v : json),
         outcome (remote (wire w) call) = inr r ->
         ~ (400 <= status_code r < 600) ->
         resp_json r = inl v ->
         fst run = Return v)
  /\ dict_get "include_context"
       (semantic_search_params "inflation" 5
                               semantic_search_default_include_context)
     = Some (PyBool false)
  /\ PyBool false <> PyStr "false".
Proof.
  cbv zeta. unfold semantic_search. split; [| split; [| split]].
  - now rewrite _get_state.
  - intros r v Ho Hr Hj. now apply _get_ok with (r := r).
  - reflexivity.
  - discriminate.
Qed.



(** ** More on dictionaries: order and uniqueness of keys *)

Section DictOrder.

Lemma dict_get_app (d1 d2 : dict) (k : string) :
  dict_get k (d1 ++ d2)%list
  = match dict_get k d1 with
    | Some v => Some v
    | None => dict_get k d2
    end.
Proof.
  induction d1 as [|[k0 v0] d1 IH]; [reflexivity |].
  cbn [app dict_get]. now destruct (String.eqb k0 k).
Qed.

Lemma dict_set_fresh (k : string) (v : pyval) (d : dict) :
  dict_get k d = None -> dict_set k v d = (d ++ [(k, v)])%list.
Proof.
  induction d as [|[k0 v0] d IH]; [reflexivity |].
  cbn [dict_get dict_set app].
  destruct (String.eqb k0 k); [discriminate |].
  intros H. now rewrite (IH H).
Qed.

Lemma dict_get_none_keys (k : string) (d : dict) :
  dict_get k d = None -> Forall (fun kv => fst kv <> k) d.
Proof.
  induction d as [|[k0 v0] d IH]; [constructor |].
  cbn [dict_get]. destruct (String.eqb k0 k) eqn:E; [discriminate |].
  intros H. constructor; [| exact (IH H)].
  cbn [fst]. intros ->. now rewrite String.eqb_refl in E.
Qed.

(** When no key of [optional] is in [params], the loop appends the
    entries that are not [None], in the order of [optional]. *)
Lemma add_optional_appends (optional : dict) :
  forall params : dict,
    unique_keys optional = true ->
    Forall (fun kv => dict_get (fst kv) params = None) optional ->
    add_optional optional params = (params ++ supplied optional)%list.
Proof.
  induction optional as [|[k v] rest IH]; intros params Hu Hfresh.
  - unfold add_optional, supplied. cbn. now rewrite app_nil_r.
  - cbn [unique_keys] in Hu.
    destruct (dict_get k rest) eqn:Hk; [discriminate |].
    apply Forall_cons in Hfresh as [Hkp Hrest]. cbn [fst] in Hkp.
    change (add_optional ((k, v) :: rest) params)
      with (add_optional rest
              (if is_not_None v then dict_set k v params else params)).
    unfold supplied. cbn [List.filter snd]. fold (supplied rest).
    destruct (is_not_None v).
    + rewrite (dict_set_fresh _ _ _ Hkp), IH; [| exact Hu |].
      * now rewrite <- app_assoc.
      * apply dict_get_none_keys in Hk.
        apply Forall_forall. intros [k' v'] Hin. cbn [fst].
        rewrite dict_get_app.
        rewrite Forall_forall in Hrest. specialize (Hrest _ Hin).
        cbn [fst] in Hrest. rewrite Hrest.
        rewrite Forall_forall in Hk. specialize (Hk _ Hin). cbn [fst] in Hk.
        cbn [dict_get]. destruct (String.eqb k k') eqn:E; [| reflexivity].
        apply String.eqb_eq in E. congruence.
    + now apply IH.
Qed.

Lemma dict_set_unique (k : string) (v : pyval) (d : dict) :
  unique_keys d = true -> unique_keys (dict_set k v d) = true.
Proof.
  induction d as [|[k0 v0] d IH]; [reflexivity |].
  cbn [unique_keys dict_set].
  destruct (dict_get k0 d) eqn:Hk0; [discriminate |]. intros Hu.
  destruct (String.eqb k0 k) eqn:E; cbn [unique_keys].
  - now rewrite Hk0.
  - rewrite dict_get_set_ne, Hk0; [now apply IH |].
    intros ->. now rewrite String.eqb_refl in E.
Qed.

(** The loop of [list_markets] never makes a key occur twice. *)
Lemma add_optional_unique (optional : dict) :
  forall params : dict,
    unique_keys params = true ->
    unique_keys (add_optional optional params) = true.
Proof.
  induction optional as [|[k v] rest IH]; intros params Hu; [exact Hu |].
  change (add_optional ((k, v) :: rest) params)
    with (add_optional rest
            (if is_not_None v then dict_set k v params else params)).
  apply IH. destruct (is_not_None v); [now apply dict_set_unique | exact Hu].
Qed.

Lemma supplied_length (d : dict) : (length (supplied d) <= length d)%nat.
Proof.
  induction d as [|[k v] d IH]; [constructor |].
  unfold supplied in *. cbn [List.filter snd length].
  destruct (is_not_None v); cbn [length]; lia.
Qed.

End DictOrder.

(** X3. The parameters of [list_markets] are the six defaulted entries in
    the order [limit], [offset], [sort_by], [sort_dir], [include_closed],
    [include_resolved], followed by the optional arguments that were
    given, in the order of the signature; so between 6 and 16 entries. *)
Theorem X3_list_markets_params_order (a : list_markets_args) :
  list_markets_params a
  = (required_params a ++ supplied (optional_params a))%list
  /\ dict_keys (required_params a)
     = ["limit"; "offset"; "sort_by"; "sort_dir"; "include_closed";
        "include_resolved"]
  /\ dict_keys (optional_params a)
     = ["platform"; "status"; "category"; "market_type"; "keyword"; "tag";
        "created_after"; "created_before"; "probability_min";
        "probability_max"]
  /\ (6 <= length (list_markets_params a) <= 16)%nat.
Proof.
  assert (H : list_markets_params a
              = (required_params a ++ supplied (optional_params a))%list).
  { unfold list_markets_params.
    apply add_optional_appends; [apply optional_params_unique |].
    rewrite optional_params_items, required_params_items.
    repeat constructor. }
  split; [exact H |]. split; [now rewrite required_params_items |].
  split; [reflexivity |].
  rewrite H, length_app.
  pose proof (supplied_length (optional_params a)) as Hs.
  assert (Hopt : length (optional_params a) = 10%nat) by reflexivity.
  assert (Hreq : length (required_params a) = 6%nat)
    by now rewrite required_params_items.
  lia.
Qed.

(** X4. No parameter name occurs twice in what [list_markets] sends. *)
Theorem X4_list_markets_params_unique (a : list_markets_args) :
  unique_keys (list_markets_params a) = true
  /\ NoDup (dict_keys (list_markets_params a)).
Proof.
  assert (Hu : unique_keys (list_markets_params a) = true).
  { apply add_optional_unique. rewrite required_params_items. reflexivity. }
  split; [exact Hu |].
  revert Hu. generalize (list_markets_params a). intros d.
  induction d as [|[k v] d IH]; cbn [unique_keys dict_keys map fst].
  - intros _. constructor.
  - destruct (dict_get k d) eqn:Hk; [discriminate |]. intros Hu.
    constructor; [| exact (IH Hu)].
    apply dict_get_none_keys in Hk. rewrite Forall_forall in Hk.
    intros Hin. apply list_elem_of_In, in_map_iff in Hin.
    destruct Hin as ([k' v'] & Heq & Hin). cbn [fst] in Heq. subst k'.
    apply list_elem_of_In in Hin. now apply (Hk _ Hin).
Qed.

(** ** More on construction *)

Lemma init_session_run (key : option string) (w : World) :
  _init_session key w
  = (Return {| headers :=
                 ci_update [("Authorization", "Bearer " ++ format_opt_str key);
                            ("Accept", "application/json")] default_headers;
               cookies := ∅ |}, w).
Proof. reflexivity. Qed.

(** What a successful [__init__] has done. *)
Lemma init_returns (key : option string) (w w' : World) (self : AdjNews) :
  __init__ key w = (Return self, w') ->
  w' = w
  /\ truthy_opt_str (api_key self) = true
  /\ api_key self
     = (if truthy_opt_str key then key
        else environ w !! "ADJ_NEWS_API_KEY")
  /\ _init_session (api_key self) w = (Return (session self), w).
Proof.
  unfold __init__, bind at 1 2.
  destruct (truthy_opt_str key) eqn:Hkey; cbn [negb].
  { unfold ret at 1. unfold bind. rewrite init_session_run.
    unfold ret. intros [= <- <-]. cbn [api_key session].
    rewrite init_session_run. auto. }
  unfold os_getenv.
  set (fallback := match environ w !! "ADJ_NEWS_API_KEY" with
                   | Some v => Some v
                   | None => None
                   end).
  assert (Hf : fallback = environ w !! "ADJ_NEWS_API_KEY")
    by (subst fallback; now destruct (environ w !! "ADJ_NEWS_API_KEY")).
  rewrite <- Hf.
  destruct (truthy_opt_str fallback) eqn:Henv; cbn [negb].
  - unfold ret at 1. unfold bind. rewrite init_session_run.
    unfold ret. intros [= <- <-]. cbn [api_key session].
    rewrite init_session_run. auto.
  - unfold raise. discriminate.
Qed.

(** X1. When the argument is missing or empty and [ADJ_NEWS_API_KEY] holds
    a non-empty value, [__init__] builds a client with that value as its
    credential and bearer token, without making a request. *)
Theorem X1_environment_fallback (key : option string) (w : World)
    (value : string) :
  key = None \/ key = Some "" ->
  environ w !! "ADJ_NEWS_API_KEY" = Some value ->
  value <> "" ->
  exists self : AdjNews,
    __init__ key w = (Return self, w)
    /\ api_key self = Some value
    /\ ci_get "Authorization" (headers (session self))
       = Some ("Bearer " ++ value)
    /\ ci_get "Accept" (headers (session self)) = Some "application/json".
Proof.
  intros Hkey Henv Hne.
  destruct (init_session_headers (Some value) w)
    as (s & Hs & _ & Hauth & Hacc).
  exists {| api_key := Some value; session := s |}.
  split; [| now repeat split].
  assert (Hno : truthy_opt_str key = false)
    by (destruct Hkey as [-> | ->]; reflexivity).
  assert (Hyes : truthy_opt_str (Some value) = true).
  { unfold truthy_opt_str. cbn [py_optional truthy].
    destruct (String.eqb value "") eqn:E; [| reflexivity].
    apply String.eqb_eq in E. contradiction. }
  unfold __init__, bind at 1 2. rewrite Hno. cbn [negb].
  unfold os_getenv. rewrite Henv, Hyes. cbn [negb].
  unfold ret at 1. unfold bind. now rewrite Hs.
Qed.

(** X2. A client that [__init__] has built was built without touching
    the world; it holds a non-empty credential, an empty cookie jar, and
    these session headers, looked up under any spelling of the name:
    [Accept] is [application/json], [Authorization] is
    [Bearer <credential>], and every other header is the default of a
    fresh session. *)
Theorem X2_session_headers (key : option string) (w w' : World)
    (self : AdjNews) :
  __init__ key w = (Return self, w') ->
  exists credential : string,
    w' = w
    /\ api_key self = Some credential
    /\ credential <> ""
    /\ cookies (session self) = ∅
    /\ forall name : string,
         ci_get name (headers (session self))
         = if String.eqb (PyStr.lower name) "accept"
           then Some "application/json"
           else if String.eqb (PyStr.lower name) "authorization"
                then Some ("Bearer " ++ credential)
                else ci_get name default_headers.
Proof.
  intros H. apply init_returns in H as (Hw & Htruthy & _ & Hs).
  destruct (api_key self) as [credential|] eqn:Hk; [| discriminate].
  exists credential. split; [exact Hw |]. split; [reflexivity |].
  split.
  { intros ->. discriminate. }
  rewrite init_session_run in Hs. injection Hs as Hs. rewrite <- Hs.
  cbn [cookies headers ci_update fold_left fst snd format_opt_str].
  split; [reflexivity |]. intros name.
  unfold ci_get, ci_set.
  change (PyStr.lower "Authorization") with "authorization".
  change (PyStr.lower "Accept") with "accept".
  destruct (String.eqb (PyStr.lower name) "accept") eqn:Ea.
  { apply String.eqb_eq in Ea. rewrite Ea. now rewrite lookup_insert_eq. }
  rewrite lookup_insert_ne
    by (intros E; rewrite <- E, String.eqb_refl in Ea; discriminate).
  destruct (String.eqb (PyStr.lower name) "authorization") eqn:Eb.
  { apply String.eqb_eq in Eb. rewrite Eb. now rewrite lookup_insert_eq. }
  rewrite lookup_insert_ne
    by (intros E; rewrite <- E, String.eqb_refl in Eb; discriminate).
  reflexivity.
Qed.

(** ** More on calls *)

Lemma join_url_base (endpoint : string) :
  join_url BASE_URL endpoint
  = "https://api.data.adj.news/" ++ PyStr.lstrip "/" endpoint.
Proof. reflexivity. Qed.

Lemma str_startswith_app (prefix rest : string) :
  str_startswith (prefix ++ rest) prefix = true.
Proof.
  induction prefix as [|p prefix IH]; [reflexivity |].
  rewrite append_cons. cbn [str_startswith].
  now rewrite Ascii.eqb_refl, IH.
Qed.

Lemma do_call_request (c : call) (self : AdjNews) (w : World) :
  exists (endpoint : string) (params : option dict),
    calls (snd (snd (do_call c (self, w))))
    = (calls w ++ [get_call self (join_url BASE_URL endpoint) params])%list
    /\ api_key (fst (snd (do_call c (self, w)))) = api_key self
    /\ headers (session (fst (snd (do_call c (self, w)))))
       = headers (session self).
Proof.
  destruct c as [endpoint params | query n ctx | a]; cbn [do_call];
    unfold semantic_search, list_markets; rewrite _get_state;
    eexists _, _; repeat split.
Qed.


(** X6. The client never retries and never skips the library: whatever
    the calls of its methods, their arguments and their outcomes, each
    makes exactly one call of [session.get], and every such call is for a
    URL that starts with [https://api.data.adj.news/]. *)
Theorem X6_one_session_get_on_base_url (cs : list call) :
  forall (self : AdjNews) (w : World),
  exists made : list GetCall,
    calls (snd (run_calls cs (self, w))) = (calls w ++ made)%list
    /\ length made = length cs
    /\ Forall (fun c =>
                 str_startswith (call_url c) "https://api.data.adj.news/"
                 = true) made.
Proof.
  induction cs as [|c cs IH]; intros self w; cbn [run_calls].
  - exists []. rewrite app_nil_r. repeat split. constructor.
  - destruct (do_call_request c self w) as (endpoint & params & Hw & _).
    destruct (do_call c (self, w)) as [res [self1 w1]].
    cbn [fst snd] in *.
    destruct (IH self1 w1) as (made & Hmade & Hlen & Hall).
    exists (get_call self (join_url BASE_URL endpoint) params :: made).
    rewrite Hmade, Hw, <- app_assoc. repeat split.
    + cbn [length]. now rewrite Hlen.
    + constructor; [| exact Hall].
      cbn [get_call call_url]. rewrite join_url_base.
      apply str_startswith_app.
Qed.

(** X7. [semantic_search] and [list_markets] each call [session.get] once,
    for their own fixed URL and with the parameters they assembled,
    whatever the arguments and whether the call then returns or raises. *)
Theorem X7_method_calls (self : AdjNews) (w : World) :
  (forall (query : string) (n : Z) (include_context : bool),
      calls (snd (snd (semantic_search query n include_context (self, w))))
      = (calls w
         ++ [get_call self "https://api.data.adj.news/api/search/query"
               (Some (semantic_search_params query n include_context))])%list)
  /\ (forall a : list_markets_args,
         calls (snd (snd (list_markets a (self, w))))
         = (calls w
            ++ [get_call self "https://api.data.adj.news/api/markets"
                  (Some (list_markets_params a))])%list).
Proof.
  split; intros; unfold semantic_search, list_markets;
    now rewrite _get_state.
Qed.

(** X8. [_get] returns a value only when [session.get] gave a response
    whose status is not 4xx or 5xx and whose body is JSON, and the value is
    that decoded body: no payload comes out of an error status, and none
    is made up. *)
Theorem X8_get_returns_only_decoded_body (endpoint : string)
    (params : option dict) (self : AdjNews) (w : World) (v : json) :
  fst (_get endpoint params (self, w)) = Return v ->
  exists r : Response,
    outcome (remote (wire w)
               (get_call self (join_url BASE_URL endpoint) params))
    = inr r
    /\ ~ (400 <= status_code r < 600)
    /\ resp_json r = inl v.
Proof.
  destruct (outcome (remote (wire w)
                       (get_call self (join_url BASE_URL endpoint) params)))
    as [e | r] eqn:Ho.
  - destruct (isinstance_RequestException (exn_class e)) eqn:Hc.
    + rewrite (_get_transport_error _ _ _ _ e Ho Hc). discriminate.
    + rewrite (_get_foreign_error _ _ _ _ e Ho Hc). discriminate.
  - destruct (decide (400 <= status_code r < 600)) as [Hr | Hr].
    + rewrite (_get_http_error _ _ _ _ r Ho Hr). discriminate.
    + destruct (resp_json r) as [v' | msg] eqn:Hj.
      * rewrite (_get_ok _ _ _ _ r v' Ho Hr Hj). intros [= ->]. eauto.
      * rewrite (_get_bad_json _ _ _ _ r msg Ho Hr Hj). discriminate.
Qed.

End Client.

(** ** The client on concrete worlds *)

Section Runs.

Local Abbreviation markets_url := "https://api.data.adj.news/api/markets".
Local Abbreviation run_get remote :=
  (fst (_get remote "/api/markets" None (Sample.client, Sample.world_unset))).

Example get_ok : run_get Sample.remote_ok = Return Sample.payload.
Proof. reflexivity. Qed.

Example get_500 :
  run_get Sample.remote_500
  = Raise (mk_exn AdjNewsError
             ("GET " ++ markets_url
              ++ " failed: 500 Server Error: Internal Server Error for url: "
              ++ markets_url)).
Proof. vm_compute. reflexivity. Qed.

(** A 404 answer raises even though its body is JSON: the body is not
    returned. *)
Example get_404 :
  run_get Sample.remote_404
  = Raise (mk_exn AdjNewsError
             ("GET " ++ markets_url
              ++ " failed: 404 Client Error: Not Found for url: "
              ++ markets_url)).
Proof. vm_compute. reflexivity. Qed.

Example get_html :
  run_get Sample.remote_html
  = Raise (mk_exn AdjNewsError
             ("GET " ++ markets_url
              ++ " failed: Expecting value: line 1 column 1 (char 0)")).
Proof. vm_compute. reflexivity. Qed.

Example get_refused :
  run_get Sample.remote_refused
  = Raise (mk_exn AdjNewsError
             ("GET " ++ markets_url ++ " failed: Connection refused")).
Proof. vm_compute. reflexivity. Qed.

(** A header value that the library refuses: the call raises and nothing
    has gone on the wire. *)
Example get_invalid_header :
  _get Sample.remote_invalid_header "/api/markets" None
    (Sample.client, Sample.world_unset)
  = (Raise (mk_exn AdjNewsError
              ("GET " ++ markets_url ++ " failed: Invalid header value")),
     (Sample.client,
      {| environ := ∅;
         calls := [get_call Sample.client markets_url None];
         wire := [] |})).
Proof. vm_compute. reflexivity. Qed.

(** An exception outside the requests hierarchy is not wrapped. *)
Example get_foreign :
  run_get Sample.remote_foreign
  = Raise (mk_exn (ForeignError "KeyboardInterrupt") "").
Proof. vm_compute. reflexivity. Qed.

(** [AdjNews("k3y")] builds [Sample.client] and leaves the world alone. *)
Example init_k3y :
  __init__ Sample.requests_headers (Some "k3y") Sample.world_unset
  = (Return Sample.client, Sample.world_unset).
Proof. reflexivity. Qed.

(** The credential of the environment is used when the argument is
    missing. *)
Example init_from_environ :
  fst (__init__ Sample.requests_headers None
         {| environ := {["ADJ_NEWS_API_KEY" := "k3y"]}; calls := []; wire := [] |})
  = Return Sample.client.
Proof. reflexivity. Qed.

(** [list_markets(platform="kalshi", probability_min=0.5)]: the six
    defaulted parameters, then the two that were given. *)
Example list_markets_kalshi :
  list_markets_params Sample.kalshi_args
  = [("limit", PyInt 5); ("offset", PyInt 0);
     ("sort_by", PyStr "updated_at"); ("sort_dir", PyStr "desc");
     ("include_closed", PyStr "false"); ("include_resolved", PyStr "false");
     ("platform", PyStr "kalshi"); ("probability_min", PyFloat 0.5%float)].
Proof. reflexivity. Qed.

Example list_markets_no_arguments :
  list_markets_params list_markets_defaults
  = [("limit", PyInt 5); ("offset", PyInt 0);
     ("sort_by", PyStr "updated_at"); ("sort_dir", PyStr "desc");
     ("include_closed", PyStr "false"); ("include_resolved", PyStr "false")].
Proof. reflexivity. Qed.

End Runs.

(** ** The theorems at concrete inputs *)

(** C3 at [AdjNews()] with the variable unset, and at [AdjNews("")] with
    the variable set to the empty string. *)
Lemma C3_witness :
  __init__ Sample.requests_headers None Sample.world_unset
  = (Raise (mk_exn AdjNewsError "ADJ_NEWS_API_KEY Not Found."),
     Sample.world_unset)
  /\ __init__ Sample.requests_headers (Some "") Sample.world_blank
     = (Raise (mk_exn AdjNewsError "ADJ_NEWS_API_KEY Not Found."),
        Sample.world_blank).
Proof.
  split.
  - apply (C3_no_credential_fails Sample.requests_headers None
             Sample.world_unset); left; reflexivity.
  - apply (C3_no_credential_fails Sample.requests_headers (Some "")
             Sample.world_blank); right; reflexivity.
Defined.



(** C10 at [platform=""] and at [probability_min=0.0]. *)
Lemma C10_witness :
  (truthy (PyStr "") = false
   /\ dict_get "platform" (list_markets_params Sample.falsy_args)
      = Some (PyStr ""))
  /\ (truthy (PyFloat 0%float) = false
      /\ dict_get "probability_min" (list_markets_params Sample.falsy_args)
         = Some (PyFloat 0%float)).
Proof.
  split; (split; [reflexivity |]).
  - apply (C10_falsy_optional_is_sent Sample.falsy_args "platform" (PyStr ""));
      [reflexivity | discriminate | reflexivity].
  - apply (C10_falsy_optional_is_sent Sample.falsy_args "probability_min"
             (PyFloat 0%float));
      [reflexivity | discriminate | reflexivity].
Defined.

(** ** Where the code departs from a plain reading *)





(** X1 at [AdjNews()] with [ADJ_NEWS_API_KEY=k3y]. *)
Lemma X1_witness :
  exists self : AdjNews,
    __init__ Sample.requests_headers None
      {| environ := {["ADJ_NEWS_API_KEY" := "k3y"]}; calls := []; wire := [] |}
    = (Return self,
       {| environ := {["ADJ_NEWS_API_KEY" := "k3y"]}; calls := []; wire := [] |})
    /\ api_key self = Some "k3y"
    /\ ci_get "Authorization" (headers (session self))
       = Some ("Bearer " ++ "k3y")
    /\ ci_get "Accept" (headers (session self)) = Some "application/json".
Proof.
  apply (X1_environment_fallback Sample.requests_headers None
           {| environ := {["ADJ_NEWS_API_KEY" := "k3y"]}; calls := []; wire := [] |}
           "k3y");
    [left; reflexivity | reflexivity | discriminate].
Defined.

(** X2 at the client that [AdjNews("k3y")] builds. *)
Lemma X2_witness :
  exists credential : string,
    Sample.world_unset = Sample.world_unset
    /\ api_key Sample.client = Some credential
    /\ credential <> ""
    /\ cookies (session Sample.client) = ∅
    /\ forall name : string,
         ci_get name (headers (session Sample.client))
         = if String.eqb (PyStr.lower name) "accept"
           then Some "application/json"
           else if String.eqb (PyStr.lower name) "authorization"
                then Some ("Bearer " ++ credential)
                else ci_get name Sample.requests_headers.
Proof.
  apply (X2_session_headers Sample.requests_headers (Some "k3y")
           Sample.world_unset Sample.world_unset Sample.client).
  reflexivity.
Defined.

(** X8 at a 200 answer with a JSON body. *)
Lemma X8_witness :
  exists r : Response,
    outcome (Sample.remote_ok (wire Sample.world_unset)
               (get_call Sample.client
                  (join_url BASE_URL "/api/markets") None))
    = inr r
    /\ ~ (400 <= status_code r < 600)
    /\ resp_json r = inl Sample.payload.
Proof.
  apply (X8_get_returns_only_decoded_body Sample.remote_ok "/api/markets"
           None Sample.client Sample.world_unset Sample.payload).
  reflexivity.
Defined.

